(** * Phaser.Components.Texture: the texture binding of a Sprite

    A shallow embedding of [src/Phaser/components/sprite/Texture.ts].

    The class is stateful JavaScript: its methods mutate the fields of
    [this], write into records owned by the parent sprite, call into the
    animation manager and the game cache, and may raise a [TypeError] when a
    property of [null] is read.  The methods are therefore embedded in a small
    state-and-exception monad [JS] over a [World] that holds the receiver, its
    sprite, the game and the object store.  A mutation made before an
    exception is raised is kept, as in JavaScript. *)

From Stdlib Require Import ZArith String List QArith.
Import ListNotations.
Local Open Scope string_scope.
Local Open Scope list_scope.
Local Open Scope Z_scope.

Set Implicit Arguments.

(** ** Objects and references *)

(** Images, dynamic textures and canvases are heap objects: the Texture holds
    references to them and reads their geometry each time it is asked. *)
Inductive ImageRef : Type := ImageAt (l : positive).
Inductive DynRef : Type := DynamicAt (l : positive).
Inductive CanvasRef : Type := CanvasAt (l : positive).
Inductive ContextRef : Type := ContextAt (l : positive).

(** The members of a cached image that Texture reads. *)
Record Image : Type := mkImage {
  img_width : Z;
  img_height : Z
}.

(** The members of [Phaser.DynamicTexture] that Texture reads
    (the class is declared in gameobjects/DynamicTexture.ts). *)
Record DynamicTexture : Type := mkDynamicTexture {
  dt_canvas : CanvasRef;
  dt_width : Z;
  dt_height : Z
}.

(** The untyped field [texture] holds either the image itself or the canvas
    of the dynamic texture. *)
Inductive Surface : Type :=
| ImageSurface (i : ImageRef)
| CanvasSurface (c : CanvasRef).

(** ** The parent sprite and the game *)

Record Frame : Type := mkFrame {
  frame_x : Z;
  frame_y : Z;
  frame_width : Z;
  frame_height : Z
}.

Definition FrameData : Type := list Frame.

Record Rectangle : Type := mkRectangle {
  rect_x : Z;
  rect_y : Z;
  rect_width : Z;
  rect_height : Z
}.

Record AnimationManager : Type := mkAnimationManager {
  frameData : option FrameData
}.

Record Body : Type := mkBody {
  bounds : Rectangle
}.

Record Sprite : Type := mkSprite {
  animations : AnimationManager;
  frameBounds : Rectangle;
  body : Body
}.

(** The three queries of [Game.cache] that Texture consumes.  Any cache is
    admitted: the record is the interface, not an implementation. *)
Record Cache : Type := mkCache {
  getImage : string -> option ImageRef;
  isSpriteSheet : string -> bool;
  getFrameData : string -> option FrameData
}.

Record Stage : Type := mkStage {
  stage_canvas : CanvasRef;
  stage_context : ContextRef
}.

Record Game : Type := mkGame {
  cache : Cache;
  stage : Stage
}.

(** ** The fields of a Texture

    [None] stands for JavaScript's [null] (and for a field not yet
    assigned).  The fields [game] and [_sprite] are the [game] and [sprite]
    components of the [World] below. *)
Record Texture : Type := mkTexture {
  imageTexture : option ImageRef;
  dynamicTexture : option DynRef;
  loaded : bool;
  alpha : option Q;
  canvas : option CanvasRef;
  context : option ContextRef;
  cacheKey : option string;
  texture : option Surface;
  renderRotation : bool;
  flippedX : bool;
  flippedY : bool;
  isDynamic : bool
}.

(** The values the field initialisers of the class give. *)
Definition field_initialisers : Texture :=
  {| imageTexture := None;
     dynamicTexture := None;
     loaded := false;
     alpha := None;
     canvas := None;
     context := None;
     cacheKey := None;
     texture := None;
     renderRotation := true;
     flippedX := false;
     flippedY := false;
     isDynamic := false |}.

(** ** Observable calls

    The calls Texture makes on its collaborators, its own backend swap and
    its writes into the sprite's records, in program order.  The log is
    instrumentation: no method reads it. *)
Inductive Event : Type :=
| Call_destroy
| Call_getImage (key : string)
| Call_isSpriteSheet (key : string)
| Call_getFrameData (key : string)
| Call_loadFrameData (fd : option FrameData)
| Call_setTo (image : option ImageRef) (dynamic : option DynRef)
| Write_frameBounds_width (v : Z)
| Write_frameBounds_height (v : Z)
| Write_body_bounds_width (v : Z)
| Write_body_bounds_height (v : Z).

(** ** The world *)

Record World : Type := mkWorld {
  this : Texture;
  sprite : Sprite;
  game : Game;
  images : ImageRef -> Image;
  dynamicTextures : DynRef -> DynamicTexture;
  calls : list Event
}.

(** ** The monad *)

Inductive Error : Type := TypeError.

Inductive Outcome (A : Type) : Type :=
| Return (a : A)
| Throw (e : Error).

Arguments Throw {A} e.

Definition JS (A : Type) : Type := World -> Outcome A * World.

Definition ret {A : Type} (a : A) : JS A := fun w => (Return a, w).

Definition bind {A B : Type} (m : JS A) (k : A -> JS B) : JS B :=
  fun w =>
    match m w with
    | (Return a, w') => k a w'
    | (Throw e, w') => (Throw e, w')
    end.

Definition throw {A : Type} (e : Error) : JS A := fun w => (Throw e, w).

Definition gets {A : Type} (f : World -> A) : JS A := fun w => (Return (f w), w).

Definition modify (f : World -> World) : JS unit := fun w => (Return tt, f w).

Declare Scope js_scope.
Delimit Scope js_scope with js.
Notation "x <- m ;; k" := (bind m (fun x => k))
  (at level 61, m at next level, right associativity) : js_scope.
Notation "m ;; k" := (bind m (fun _ => k))
  (at level 61, right associativity) : js_scope.
Local Open Scope js_scope.

Definition when (b : bool) (m : JS unit) : JS unit := if b then m else ret tt.

(** Result and final state of running a method. *)
Definition result {A : Type} (m : JS A) (w : World) : Outcome A := fst (m w).
Definition exec {A : Type} (m : JS A) (w : World) : World := snd (m w).

(** Reading a property of a reference: a [TypeError] on [null]. *)
Definition deref {R : Type} (r : option R) : JS R :=
  match r with
  | Some o => ret o
  | None => throw TypeError
  end.

(** ** Field assignments *)

Definition with_this (f : Texture -> Texture) (w : World) : World :=
  {| this := f (this w); sprite := sprite w; game := game w;
     images := images w; dynamicTextures := dynamicTextures w;
     calls := calls w |}.

Definition with_sprite (f : Sprite -> Sprite) (w : World) : World :=
  {| this := this w; sprite := f (sprite w); game := game w;
     images := images w; dynamicTextures := dynamicTextures w;
     calls := calls w |}.

Definition with_calls (f : list Event -> list Event) (w : World) : World :=
  {| this := this w; sprite := sprite w; game := game w;
     images := images w; dynamicTextures := dynamicTextures w;
     calls := f (calls w) |}.

Definition set_imageTexture (v : option ImageRef) (t : Texture) : Texture :=
  {| imageTexture := v; dynamicTexture := dynamicTexture t;
     loaded := loaded t; alpha := alpha t; canvas := canvas t;
     context := context t; cacheKey := cacheKey t; texture := texture t;
     renderRotation := renderRotation t; flippedX := flippedX t;
     flippedY := flippedY t; isDynamic := isDynamic t |}.

Definition set_dynamicTexture (v : option DynRef) (t : Texture) : Texture :=
  {| imageTexture := imageTexture t; dynamicTexture := v;
     loaded := loaded t; alpha := alpha t; canvas := canvas t;
     context := context t; cacheKey := cacheKey t; texture := texture t;
     renderRotation := renderRotation t; flippedX := flippedX t;
     flippedY := flippedY t; isDynamic := isDynamic t |}.

Definition set_loaded (v : bool) (t : Texture) : Texture :=
  {| imageTexture := imageTexture t; dynamicTexture := dynamicTexture t;
     loaded := v; alpha := alpha t; canvas := canvas t;
     context := context t; cacheKey := cacheKey t; texture := texture t;
     renderRotation := renderRotation t; flippedX := flippedX t;
     flippedY := flippedY t; isDynamic := isDynamic t |}.

Definition set_alpha (v : option Q) (t : Texture) : Texture :=
  {| imageTexture := imageTexture t; dynamicTexture := dynamicTexture t;
     loaded := loaded t; alpha := v; canvas := canvas t;
     context := context t; cacheKey := cacheKey t; texture := texture t;
     renderRotation := renderRotation t; flippedX := flippedX t;
     flippedY := flippedY t; isDynamic := isDynamic t |}.

Definition set_canvas (v : option CanvasRef) (t : Texture) : Texture :=
  {| imageTexture := imageTexture t; dynamicTexture := dynamicTexture t;
     loaded := loaded t; alpha := alpha t; canvas := v;
     context := context t; cacheKey := cacheKey t; texture := texture t;
     renderRotation := renderRotation t; flippedX := flippedX t;
     flippedY := flippedY t; isDynamic := isDynamic t |}.

Definition set_context (v : option ContextRef) (t : Texture) : Texture :=
  {| imageTexture := imageTexture t; dynamicTexture := dynamicTexture t;
     loaded := loaded t; alpha := alpha t; canvas := canvas t;
     context := v; cacheKey := cacheKey t; texture := texture t;
     renderRotation := renderRotation t; flippedX := flippedX t;
     flippedY := flippedY t; isDynamic := isDynamic t |}.

Definition set_cacheKey (v : option string) (t : Texture) : Texture :=
  {| imageTexture := imageTexture t; dynamicTexture := dynamicTexture t;
     loaded := loaded t; alpha := alpha t; canvas := canvas t;
     context := context t; cacheKey := v; texture := texture t;
     renderRotation := renderRotation t; flippedX := flippedX t;
     flippedY := flippedY t; isDynamic := isDynamic t |}.

Definition set_texture (v : option Surface) (t : Texture) : Texture :=
  {| imageTexture := imageTexture t; dynamicTexture := dynamicTexture t;
     loaded := loaded t; alpha := alpha t; canvas := canvas t;
     context := context t; cacheKey := cacheKey t; texture := v;
     renderRotation := renderRotation t; flippedX := flippedX t;
     flippedY := flippedY t; isDynamic := isDynamic t |}.

Definition set_flippedX (v : bool) (t : Texture) : Texture :=
  {| imageTexture := imageTexture t; dynamicTexture := dynamicTexture t;
     loaded := loaded t; alpha := alpha t; canvas := canvas t;
     context := context t; cacheKey := cacheKey t; texture := texture t;
     renderRotation := renderRotation t; flippedX := v;
     flippedY := flippedY t; isDynamic := isDynamic t |}.

Definition set_flippedY (v : bool) (t : Texture) : Texture :=
  {| imageTexture := imageTexture t; dynamicTexture := dynamicTexture t;
     loaded := loaded t; alpha := alpha t; canvas := canvas t;
     context := context t; cacheKey := cacheKey t; texture := texture t;
     renderRotation := renderRotation t; flippedX := flippedX t;
     flippedY := v; isDynamic := isDynamic t |}.

Definition set_isDynamic (v : bool) (t : Texture) : Texture :=
  {| imageTexture := imageTexture t; dynamicTexture := dynamicTexture t;
     loaded := loaded t; alpha := alpha t; canvas := canvas t;
     context := context t; cacheKey := cacheKey t; texture := texture t;
     renderRotation := renderRotation t; flippedX := flippedX t;
     flippedY := flippedY t; isDynamic := v |}.

Definition set_rect_width (v : Z) (r : Rectangle) : Rectangle :=
  {| rect_x := rect_x r; rect_y := rect_y r;
     rect_width := v; rect_height := rect_height r |}.

Definition set_rect_height (v : Z) (r : Rectangle) : Rectangle :=
  {| rect_x := rect_x r; rect_y := rect_y r;
     rect_width := rect_width r; rect_height := v |}.

Definition with_frameBounds (f : Rectangle -> Rectangle) (s : Sprite) : Sprite :=
  {| animations := animations s; frameBounds := f (frameBounds s);
     body := body s |}.

Definition with_body_bounds (f : Rectangle -> Rectangle) (s : Sprite) : Sprite :=
  {| animations := animations s; frameBounds := frameBounds s;
     body := {| bounds := f (bounds (body s)) |} |}.

Definition with_frameData (v : option FrameData) (s : Sprite) : Sprite :=
  {| animations := {| frameData := v |}; frameBounds := frameBounds s;
     body := body s |}.

(** [this.f = v] *)
Definition assign (f : Texture -> Texture) : JS unit := modify (with_this f).

Definition emit (e : Event) : JS unit :=
  modify (with_calls (fun l => l ++ [e])).

(** ** The collaborators *)

(** [this.game.cache.getImage(key)] *)
Definition cache_getImage (key : string) : JS (option ImageRef) :=
  emit (Call_getImage key) ;;
  gets (fun w => getImage (cache (game w)) key).

(** [this.game.cache.isSpriteSheet(key)] *)
Definition cache_isSpriteSheet (key : string) : JS bool :=
  emit (Call_isSpriteSheet key) ;;
  gets (fun w => isSpriteSheet (cache (game w)) key).

(** [this._sprite.game.cache.getFrameData(key)] *)
Definition cache_getFrameData (key : string) : JS (option FrameData) :=
  emit (Call_getFrameData key) ;;
  gets (fun w => getFrameData (cache (game w)) key).

(** Modelled from the spec: [AnimationManager.destroy], whose class is not
    under src/.  The spec's contract for it is [discardFrameData()]: the
    animation subsystem discards the frame data it holds. *)
Definition animations_destroy : JS unit :=
  emit Call_destroy ;;
  modify (with_sprite (with_frameData None)).

(** Modelled from the spec: [AnimationManager.loadFrameData], whose class is
    not under src/.  The spec's contract for it is
    [loadFrameData(FrameData)]: the animation subsystem receives the frame
    metadata forwarded to it and holds it from then on. *)
Definition animations_loadFrameData (fd : option FrameData) : JS unit :=
  emit (Call_loadFrameData fd) ;;
  modify (with_sprite (with_frameData fd)).

(** [this._sprite.frameBounds.width = v] and its three siblings. *)
Definition write_frameBounds_width (v : Z) : JS unit :=
  emit (Write_frameBounds_width v) ;;
  modify (with_sprite (with_frameBounds (set_rect_width v))).

Definition write_frameBounds_height (v : Z) : JS unit :=
  emit (Write_frameBounds_height v) ;;
  modify (with_sprite (with_frameBounds (set_rect_height v))).

Definition write_body_bounds_width (v : Z) : JS unit :=
  emit (Write_body_bounds_width v) ;;
  modify (with_sprite (with_body_bounds (set_rect_width v))).

Definition write_body_bounds_height (v : Z) : JS unit :=
  emit (Write_body_bounds_height v) ;;
  modify (with_sprite (with_body_bounds (set_rect_height v))).

(** ** The methods of Texture *)

(** [if (r)] on a reference: an object is truthy, [null] is not. *)
Definition truthy {R : Type} (r : option R) : bool :=
  match r with
  | Some _ => true
  | None => false
  end.

(** [r !== null] *)
Definition not_null {R : Type} (r : option R) : bool :=
  match r with
  | Some _ => true
  | None => false
  end.

(** [get width()] *)
Definition width : JS Z :=
  dyn <- gets (fun w => isDynamic (this w)) ;;
  if dyn then
    r <- gets (fun w => dynamicTexture (this w)) ;;
    d <- deref r ;;
    gets (fun w => dt_width (dynamicTextures w d))
  else
    r <- gets (fun w => imageTexture (this w)) ;;
    i <- deref r ;;
    gets (fun w => img_width (images w i)).

(** [get height()] *)
Definition height : JS Z :=
  dyn <- gets (fun w => isDynamic (this w)) ;;
  if dyn then
    r <- gets (fun w => dynamicTexture (this w)) ;;
    d <- deref r ;;
    gets (fun w => dt_height (dynamicTextures w d))
  else
    r <- gets (fun w => imageTexture (this w)) ;;
    i <- deref r ;;
    gets (fun w => img_height (images w i)).

(** [setTo(image = null, dynamic = null)]: an omitted argument is [None].
    The method returns [this._sprite]. *)
Definition setTo (image : option ImageRef) (dynamic : option DynRef) : JS Sprite :=
  emit (Call_setTo image dynamic) ;;
  (if truthy dynamic then
     assign (set_isDynamic true) ;;
     assign (set_dynamicTexture dynamic) ;;
     r <- gets (fun w => dynamicTexture (this w)) ;;
     d <- deref r ;;
     c <- gets (fun w => dt_canvas (dynamicTextures w d)) ;;
     assign (set_texture (Some (CanvasSurface c)))
   else
     assign (set_isDynamic false) ;;
     assign (set_imageTexture image) ;;
     r <- gets (fun w => imageTexture (this w)) ;;
     assign (set_texture (option_map ImageSurface r))) ;;
  assign (set_loaded true) ;;
  gets sprite.

(** [loadImage(key, clearAnimations = true, updateBody = true)] *)
Definition loadImage (key : string) (clearAnimations updateBody : bool) : JS unit :=
  stale <- (if clearAnimations
            then fd <- gets (fun w => frameData (animations (sprite w))) ;;
                 ret (not_null fd)
            else ret false) ;;
  when stale animations_destroy ;;
  found <- cache_getImage key ;;
  when (not_null found)
    (image <- cache_getImage key ;;
     setTo image None ;;
     sheet <- cache_isSpriteSheet key ;;
     (if sheet then
        fd <- cache_getFrameData key ;;
        animations_loadFrameData fd
      else
        wd <- width ;;
        write_frameBounds_width wd ;;
        ht <- height ;;
        write_frameBounds_height ht) ;;
     when updateBody
       (wd <- width ;;
        write_body_bounds_width wd ;;
        ht <- height ;;
        write_body_bounds_height ht)).

(** [loadDynamicTexture(texture)] *)
Definition loadDynamicTexture (texture : option DynRef) : JS unit :=
  fd <- gets (fun w => frameData (animations (sprite w))) ;;
  when (not_null fd) animations_destroy ;;
  setTo None texture ;;
  wd <- width ;;
  write_frameBounds_width wd ;;
  ht <- height ;;
  write_frameBounds_height ht.

(** [constructor(parent, key = '')]: the field initialisers run first, then
    the body.  [Some k] is a key (the default is [Some ""]), [None] is an
    explicit [null]. *)
Definition constructor (key : option string) : JS unit :=
  assign (fun _ => field_initialisers) ;;
  c <- gets (fun w => stage_canvas (stage (game w))) ;;
  assign (set_canvas (Some c)) ;;
  x <- gets (fun w => stage_context (stage (game w))) ;;
  assign (set_context (Some x)) ;;
  assign (set_alpha (Some 1%Q)) ;;
  assign (set_flippedX false) ;;
  assign (set_flippedY false) ;;
  match key with
  | Some k =>
      assign (set_cacheKey (Some k)) ;;
      loadImage k true true
  | None => ret tt
  end.

(** ** Lifetimes

    What can happen to a Texture after its construction: one of its methods is
    called, or the rest of the game runs and leaves the Texture's own fields
    and the log alone. *)
Inductive Method : Type :=
| M_setTo (image : option ImageRef) (dynamic : option DynRef)
| M_loadImage (key : string) (clearAnimations updateBody : bool)
| M_loadDynamicTexture (texture : option DynRef)
| M_width
| M_height.

Definition invoke (m : Method) : JS unit :=
  match m with
  | M_setTo image dynamic => setTo image dynamic ;; ret tt
  | M_loadImage key c u => loadImage key c u
  | M_loadDynamicTexture t => loadDynamicTexture t
  | M_width => width ;; ret tt
  | M_height => height ;; ret tt
  end.

Inductive step : World -> World -> Prop :=
| step_call (m : Method) (w : World) : step w (exec (invoke m) w)
| step_env (w w' : World) :
    this w' = this w -> calls w' = calls w -> step w w'.

Inductive reachable : World -> Prop :=
| reachable_new (key : option string) (w : World) :
    reachable (exec (constructor key) w)
| reachable_step (w w' : World) :
    reachable w -> step w w' -> reachable w'.

(** ** Predicates on the backend *)

(** Exactly one of the two backend references is populated. *)
Definition exactly_one_populated (t : Texture) : Prop :=
  (imageTexture t <> None /\ dynamicTexture t = None) \/
  (imageTexture t = None /\ dynamicTexture t <> None).

(** The reference that [isDynamic] selects is populated. *)
Definition selected_populated (t : Texture) : Prop :=
  if isDynamic t then dynamicTexture t <> None else imageTexture t <> None.

(** No backend has been bound: the state the field initialisers give. *)
Definition unbound_state (t : Texture) : Prop :=
  loaded t = false ->
  isDynamic t = false /\ imageTexture t = None /\ dynamicTexture t = None.

(** The fields that make up the backend state. *)
Definition same_backend (t t' : Texture) : Prop :=
  imageTexture t' = imageTexture t /\
  dynamicTexture t' = dynamicTexture t /\
  texture t' = texture t /\
  isDynamic t' = isDynamic t /\
  loaded t' = loaded t.

(** The contract of the bind operation: exactly one argument is supplied. *)
Definition one_supplied (image : option ImageRef) (dynamic : option DynRef) : Prop :=
  (image <> None /\ dynamic = None) \/ (image = None /\ dynamic <> None).

(** The rest of the game changes the objects in the store (an image is
    reloaded, a dynamic texture is resized). *)
Definition set_images (im : ImageRef -> Image) (w : World) : World :=
  {| this := this w; sprite := sprite w; game := game w;
     images := im; dynamicTextures := dynamicTextures w;
     calls := calls w |}.

Definition set_dynamicTextures (dy : DynRef -> DynamicTexture) (w : World) : World :=
  {| this := this w; sprite := sprite w; game := game w;
     images := images w; dynamicTextures := dy;
     calls := calls w |}.

(** The events a run appended to the log. *)
Definition emitted {A : Type} (m : JS A) (w : World) : list Event :=
  skipn (length (calls w)) (calls (exec m w)).

(** The events of a run that forward frame data to the animation manager,
    and those that write the sprite's frame bounds. *)
Definition loads_frame_data (evs : list Event) : Prop :=
  exists fd, In (Call_loadFrameData fd) evs.

Definition writes_frameBounds (evs : list Event) : Prop :=
  exists v, In (Write_frameBounds_width v) evs \/
            In (Write_frameBounds_height v) evs.

(** What [loadImage] emits when the cache has the image. *)
Definition loadImage_hit_events
    (w : World) (key : string) (clearAnimations updateBody : bool)
    (image : ImageRef) : list Event :=
  (if clearAnimations && not_null (frameData (animations (sprite w)))
   then [Call_destroy] else []) ++
  [Call_getImage key; Call_getImage key; Call_setTo (Some image) None;
   Call_isSpriteSheet key] ++
  (if isSpriteSheet (cache (game w)) key
   then [Call_getFrameData key;
         Call_loadFrameData (getFrameData (cache (game w)) key)]
   else [Write_frameBounds_width (img_width (images w image));
         Write_frameBounds_height (img_height (images w image))]) ++
  (if updateBody
   then [Write_body_bounds_width (img_width (images w image));
         Write_body_bounds_height (img_height (images w image))]
   else []).

(** Any number of steps. *)
Inductive steps : World -> World -> Prop :=
| steps_refl (w : World) : steps w w
| steps_next (w w' w'' : World) : steps w w' -> step w' w'' -> steps w w''.

(** The fields of a Texture that say how it is drawn and where it came from,
    as opposed to what it is bound to. *)
Definition settings (t : Texture) :
    option Q * option CanvasRef * option ContextRef * option string *
    bool * bool * bool :=
  (alpha t, canvas t, context t, cacheKey t,
   renderRotation t, flippedX t, flippedY t).

(** The tag and the fields it governs fit together: in dynamic mode a dynamic
    texture is held, the Texture is loaded and [texture] is a canvas; in
    static mode [texture] is the image held, or null when none is. *)
Definition backend_consistent (t : Texture) : Prop :=
  (isDynamic t = true ->
   loaded t = true /\ dynamicTexture t <> None /\
   exists c, texture t = Some (CanvasSurface c)) /\
  (isDynamic t = false ->
   texture t = option_map ImageSurface (imageTexture t)).

(** Writes into [body.bounds] among the events of a run. *)
Definition writes_body_bounds (evs : list Event) : Prop :=
  exists v, In (Write_body_bounds_width v) evs \/
            In (Write_body_bounds_height v) evs.

(** ** Sample worlds *)

Module Sample.

Definition hero_png : ImageRef := ImageAt 1.
Definition tiles_png : ImageRef := ImageAt 2.
Definition buffer : DynRef := DynamicAt 1.
Definition big_buffer : DynRef := DynamicAt 2.

Definition the_images (r : ImageRef) : Image :=
  match r with
  | ImageAt 1 => {| img_width := 64; img_height := 32 |}
  | ImageAt _ => {| img_width := 128; img_height := 96 |}
  end.

Definition the_dynamicTextures (r : DynRef) : DynamicTexture :=
  match r with
  | DynamicAt 1 =>
      {| dt_canvas := CanvasAt 11; dt_width := 128; dt_height := 128 |}
  | DynamicAt _ =>
      {| dt_canvas := CanvasAt 12; dt_width := 256; dt_height := 200 |}
  end.

Definition four_frames : FrameData :=
  [ mkFrame 0 0 32 48; mkFrame 32 0 32 48;
    mkFrame 64 0 32 48; mkFrame 96 0 32 48 ].

(** "hero" is a single image, "tiles" a sprite sheet, nothing else is
    cached. *)
Definition the_cache : Cache :=
  {| getImage := fun k =>
       if String.eqb k "hero" then Some hero_png
       else if String.eqb k "tiles" then Some tiles_png
       else None;
     isSpriteSheet := fun k => String.eqb k "tiles";
     getFrameData := fun k =>
       if String.eqb k "tiles" then Some four_frames else None |}.

Definition the_game : Game :=
  {| cache := the_cache;
     stage := {| stage_canvas := CanvasAt 1; stage_context := ContextAt 1 |} |}.

Definition the_sprite : Sprite :=
  {| animations := {| frameData := None |};
     frameBounds := mkRectangle 10 20 0 0;
     body := {| bounds := mkRectangle 10 20 16 16 |} |}.

Definition animated_sprite : Sprite :=
  {| animations := {| frameData := Some four_frames |};
     frameBounds := mkRectangle 10 20 32 48;
     body := {| bounds := mkRectangle 10 20 16 16 |} |}.

(** A world in which no Texture has been constructed yet. *)
Definition blank (s : Sprite) : World :=
  {| this := field_initialisers; sprite := s; game := the_game;
     images := the_images; dynamicTextures := the_dynamicTextures;
     calls := [] |}.

(** A sprite made without a cached key: its Texture is unbound. *)
Definition unbound : World := exec (constructor (Some "")) (blank the_sprite).

Definition unbound_animated : World :=
  exec (constructor None) (blank animated_sprite).

(** The image is bound, then the buffer, then the image again. *)
Definition static_bound : World :=
  exec (setTo (Some hero_png) None) unbound.

Definition dynamic_over_static : World :=
  exec (setTo None (Some buffer)) static_bound.

Definition static_over_dynamic : World :=
  exec (setTo (Some hero_png) None) dynamic_over_static.

(** An animated sprite whose Texture has the image bound. *)
Definition static_bound_animated : World :=
  exec (setTo (Some hero_png) None) unbound_animated.

(** "hero" loaded once, and once more. *)
Definition hero_once : World :=
  exec (loadImage "hero" true true) unbound_animated.

Definition hero_twice : World :=
  exec (loadImage "hero" true true) hero_once.

(** A sprite constructed with the key "hero", which then loads "tiles". *)
Definition constructed_hero : World :=
  exec (constructor (Some "hero")) (blank animated_sprite).

Definition hero_then_tiles : World :=
  exec (loadImage "tiles" false false) constructed_hero.

(** "hero" loaded, then a dynamic buffer. *)
Definition hero_then_buffer : World :=
  exec (loadDynamicTexture (Some buffer)) hero_once.

End Sample.

(** * Properties *)

(** ** Proof support *)

Lemma emitted_app {A : Type} (m : JS A) (w : World) (l : list Event) :
  calls (exec m w) = calls w ++ l -> emitted m w = l.
Proof.
  intros H. unfold emitted. rewrite H.
  rewrite skipn_app, skipn_all, Nat.sub_diag. reflexivity.
Qed.

(** Name the components of a world, so that the methods compute on it. *)
Ltac open_world w :=
  let t := fresh "t" in
  let fd := fresh "fd" in
  let fb := fresh "fb" in
  let bd := fresh "bd" in
  let gi := fresh "gi" in
  let iss := fresh "iss" in
  let gfd := fresh "gfd" in
  let st := fresh "st" in
  let im := fresh "im" in
  let dy := fresh "dy" in
  let cs := fresh "cs" in
  destruct w as [t [[fd] fb bd] [[gi iss gfd] st] im dy cs];
  cbn [this sprite game images dynamicTextures calls cache stage getImage
       isSpriteSheet getFrameData animations frameData frameBounds body] in *.

(** Run the methods in the goal as far as the known data allow. *)
Ltac js_run :=
  cbv -[app skipn length img_width img_height dt_width dt_height dt_canvas];
  try rewrite <- !app_assoc; cbn [app].

(** ** The backend swap *)

Lemma setTo_static_eq (w : World) (image : option ImageRef) :
  setTo image None w =
  (Return (sprite w),
   with_this
     (fun t =>
        set_loaded true
          (set_texture (option_map ImageSurface image)
             (set_imageTexture image (set_isDynamic false t))))
     (with_calls (fun l => l ++ [Call_setTo image None]) w)).
Proof. reflexivity. Qed.

Lemma setTo_dynamic_eq (w : World) (image : option ImageRef) (d : DynRef) :
  setTo image (Some d) w =
  (Return (sprite w),
   with_this
     (fun t =>
        set_loaded true
          (set_texture (Some (CanvasSurface (dt_canvas (dynamicTextures w d))))
             (set_dynamicTexture (Some d) (set_isDynamic true t))))
     (with_calls (fun l => l ++ [Call_setTo image (Some d)]) w)).
Proof. reflexivity. Qed.

(** [setTo] always completes and always leaves [loaded] set. *)
Lemma setTo_loaded (w : World) (image : option ImageRef) (dynamic : option DynRef) :
  loaded (this (exec (setTo image dynamic) w)) = true.
Proof. destruct dynamic; reflexivity. Qed.

(** C1, as amended.  After a call of [setTo] with exactly one argument
    supplied, from any prior state of the Texture (so: after any sequence of
    binds), the call has returned the sprite, [loaded] is set, [isDynamic] is
    true iff the dynamic argument was the one supplied, the reference that
    [isDynamic] selects holds the argument, and the other reference keeps the
    value it had before the call: it is not cleared. *)
Theorem setTo_binds_selected_backend
    (w : World) (image : option ImageRef) (dynamic : option DynRef) :
  one_supplied image dynamic ->
  let w' := exec (setTo image dynamic) w in
  result (setTo image dynamic) w = Return (sprite w) /\
  loaded (this w') = true /\
  (isDynamic (this w') = true <-> dynamic <> None) /\
  selected_populated (this w') /\
  (if isDynamic (this w')
   then dynamicTexture (this w') = dynamic /\
        imageTexture (this w') = imageTexture (this w)
   else imageTexture (this w') = image /\
        dynamicTexture (this w') = dynamicTexture (this w)).
Proof.
  intros [[Hi Hd] | [Hi Hd]] w'; subst w'.
  - subst dynamic. unfold result, exec. rewrite setTo_static_eq.
    unfold selected_populated. cbn.
    repeat split; try assumption; intros; congruence.
  - destruct dynamic as [d|]; [clear Hd | congruence].
    unfold result, exec. rewrite setTo_dynamic_eq.
    unfold selected_populated. cbn.
    repeat split; intros; congruence.
Qed.

Lemma setTo_binds_selected_backend_witness :
  one_supplied None (Some Sample.buffer) /\
  isDynamic (this Sample.dynamic_over_static) = true /\
  dynamicTexture (this Sample.dynamic_over_static) = Some Sample.buffer /\
  imageTexture (this Sample.dynamic_over_static) = Some Sample.hero_png.
Proof.
  assert (H : one_supplied None (Some Sample.buffer)).
  { right. split; [reflexivity | discriminate]. }
  split; [exact H|].
  pose proof (setTo_binds_selected_backend Sample.static_bound H)
    as (_ & _ & _ & _ & E).
  change (exec (setTo None (Some Sample.buffer)) Sample.static_bound)
    with Sample.dynamic_over_static in E.
  change (isDynamic (this Sample.dynamic_over_static)) with true in E.
  destruct E as [E1 E2].
  split; [reflexivity|]. split; [exact E1 | exact E2].
Defined.

(** C1, as stated, fails: binding a dynamic buffer after a static image
    leaves both references populated, and binding the image again leaves
    [isDynamic] false while [dynamicTexture] is still populated. *)
Lemma setTo_keeps_the_other_backend :
  result (setTo None (Some Sample.buffer)) Sample.static_bound =
    Return Sample.the_sprite /\
  imageTexture (this Sample.dynamic_over_static) = Some Sample.hero_png /\
  dynamicTexture (this Sample.dynamic_over_static) = Some Sample.buffer /\
  ~ exactly_one_populated (this Sample.dynamic_over_static) /\
  result (setTo (Some Sample.hero_png) None) Sample.dynamic_over_static =
    Return Sample.the_sprite /\
  isDynamic (this Sample.static_over_dynamic) = false /\
  dynamicTexture (this Sample.static_over_dynamic) = Some Sample.buffer /\
  ~ (isDynamic (this Sample.static_over_dynamic) = true <->
     dynamicTexture (this Sample.static_over_dynamic) <> None).
Proof.
  repeat split; try reflexivity.
  - intros [[_ H] | [H _]]; vm_compute in H; discriminate.
  - intros [_ H].
    assert (E : isDynamic (this Sample.static_over_dynamic) = true).
    { apply H. vm_compute. discriminate. }
    vm_compute in E. discriminate.
Qed.

(** C2, as amended.  [setTo] with neither argument supplied raises nothing:
    it returns the sprite, takes the static branch ([isDynamic] false,
    [imageTexture] and [texture] null, [dynamicTexture] untouched) and sets
    [loaded]. *)
Theorem setTo_without_arguments_completes (w : World) :
  let w' := exec (setTo None None) w in
  result (setTo None None) w = Return (sprite w) /\
  isDynamic (this w') = false /\
  imageTexture (this w') = None /\
  texture (this w') = None /\
  dynamicTexture (this w') = dynamicTexture (this w) /\
  loaded (this w') = true /\
  sprite w' = sprite w.
Proof. repeat split. Qed.

(** C2, as stated, fails: on an unbound Texture the call completes normally
    and leaves [loaded] true with no backend populated. *)
Lemma setTo_without_arguments_does_not_fail :
  result (setTo None None) Sample.unbound = Return Sample.the_sprite /\
  loaded (this (exec (setTo None None) Sample.unbound)) = true /\
  imageTexture (this (exec (setTo None None) Sample.unbound)) = None /\
  dynamicTexture (this (exec (setTo None None) Sample.unbound)) = None.
Proof. repeat split. Qed.

(** ** The getters *)

(** What a getter answers is a function of the tag, of the reference the tag
    selects and of the object that reference points to at the time of the
    call; the getter changes nothing. *)
Lemma width_eq (w : World) :
  width w =
  ((if isDynamic (this w)
    then match dynamicTexture (this w) with
         | Some d => Return (dt_width (dynamicTextures w d))
         | None => Throw TypeError
         end
    else match imageTexture (this w) with
         | Some i => Return (img_width (images w i))
         | None => Throw TypeError
         end), w).
Proof.
  unfold width, bind, gets, deref, ret, throw.
  destruct (isDynamic (this w)).
  - destruct (dynamicTexture (this w)); reflexivity.
  - destruct (imageTexture (this w)); reflexivity.
Qed.

Lemma height_eq (w : World) :
  height w =
  ((if isDynamic (this w)
    then match dynamicTexture (this w) with
         | Some d => Return (dt_height (dynamicTextures w d))
         | None => Throw TypeError
         end
    else match imageTexture (this w) with
         | Some i => Return (img_height (images w i))
         | None => Throw TypeError
         end), w).
Proof.
  unfold height, bind, gets, deref, ret, throw.
  destruct (isDynamic (this w)).
  - destruct (dynamicTexture (this w)); reflexivity.
  - destruct (imageTexture (this w)); reflexivity.
Qed.

(** Two worlds with the same Texture fields and the same objects give the
    same answers. *)
Lemma getters_congruence (w w' : World) :
  this w' = this w -> images w' = images w ->
  dynamicTextures w' = dynamicTextures w ->
  result width w' = result width w /\ result height w' = result height w.
Proof.
  intros T I D. unfold result. rewrite !width_eq, !height_eq.
  cbn [fst]. rewrite T, I, D. split; reflexivity.
Qed.

(** ** Loading from the cache *)

(** C3.  When the cache has no image for the key, [loadImage] raises nothing
    and leaves the Texture as it was, whatever the two flags are: every field
    of the receiver (so [loaded], [imageTexture], [dynamicTexture], [texture]
    and [isDynamic]) is unchanged, the objects the references point to are
    unchanged, and the [width] and [height] getters answer as before. *)
Theorem loadImage_miss_leaves_texture
    (w : World) (key : string) (clearAnimations updateBody : bool) :
  getImage (cache (game w)) key = None ->
  let w' := exec (loadImage key clearAnimations updateBody) w in
  result (loadImage key clearAnimations updateBody) w = Return tt /\
  this w' = this w /\
  same_backend (this w) (this w') /\
  images w' = images w /\
  dynamicTextures w' = dynamicTextures w /\
  result width w' = result width w /\
  result height w' = result height w.
Proof.
  intros H w'.
  assert (E : result (loadImage key clearAnimations updateBody) w = Return tt /\
              this w' = this w /\ images w' = images w /\
              dynamicTextures w' = dynamicTextures w).
  { subst w'. open_world w.
    destruct clearAnimations, fd; js_run; rewrite !H; js_run;
      repeat split; reflexivity. }
  destruct E as (R & T & I & D).
  destruct (getters_congruence w w' T I D) as [GW GH].
  unfold same_backend. rewrite T. repeat split; assumption.
Qed.

Lemma loadImage_miss_leaves_texture_witness :
  result (loadImage "nope" true true) Sample.static_bound_animated = Return tt /\
  this (exec (loadImage "nope" true true) Sample.static_bound_animated) =
    this Sample.static_bound_animated /\
  result width (exec (loadImage "nope" true true) Sample.static_bound_animated) =
    Return 64 /\
  result height (exec (loadImage "nope" true true) Sample.static_bound_animated) =
    Return 32.
Proof.
  destruct (@loadImage_miss_leaves_texture
              Sample.static_bound_animated "nope" true true eq_refl)
    as (R & T & _ & _ & _ & W & H).
  split; [exact R|]. split; [exact T|].
  split; [exact W | exact H].
Defined.

(** C4.  When the sprite holds frame data, [clearAnimations] is set and the
    cache has an image for the key, the events [loadImage] emits begin with
    the call of [animations.destroy], and the call of [setTo] that binds the
    new image comes later in the sequence, after the cache lookups. *)
Theorem loadImage_discards_before_binding
    (w : World) (key : string) (updateBody : bool) (image : ImageRef) :
  frameData (animations (sprite w)) <> None ->
  getImage (cache (game w)) key = Some image ->
  exists rest,
    emitted (loadImage key true updateBody) w =
    Call_destroy :: Call_getImage key :: Call_getImage key ::
    Call_setTo (Some image) None :: rest /\
    ~ In Call_destroy rest.
Proof.
  intros F H. open_world w.
  destruct fd as [fd|]; [clear F | congruence].
  destruct updateBody, (iss key) eqn:S; eexists; split;
    try (apply emitted_app; js_run; rewrite !H; js_run; rewrite !S; js_run;
         reflexivity);
    cbn [In]; intros C; repeat (destruct C as [C | C]; try discriminate C);
    exact C.
Qed.

Lemma loadImage_discards_before_binding_witness :
  exists rest,
    emitted (loadImage "hero" true true) Sample.unbound_animated =
    Call_destroy :: Call_getImage "hero" :: Call_getImage "hero" ::
    Call_setTo (Some Sample.hero_png) None :: rest /\
    ~ In Call_destroy rest.
Proof.
  apply (@loadImage_discards_before_binding
           Sample.unbound_animated "hero" true Sample.hero_png).
  - discriminate.
  - reflexivity.
Defined.

Lemma loadImage_hit_emitted
    (w : World) (key : string) (clearAnimations updateBody : bool)
    (image : ImageRef) :
  getImage (cache (game w)) key = Some image ->
  emitted (loadImage key clearAnimations updateBody) w =
  loadImage_hit_events w key clearAnimations updateBody image.
Proof.
  intros H. open_world w. apply emitted_app.
  unfold loadImage_hit_events.
  cbn [this sprite game images dynamicTextures calls cache stage getImage
       isSpriteSheet getFrameData animations frameData frameBounds body].
  destruct clearAnimations, fd, updateBody, (iss key) eqn:S;
    js_run; rewrite !H; js_run; rewrite !S; js_run; reflexivity.
Qed.

(** C5.  When the cache has an image for the key, [loadImage] takes one of
    two branches and never both.  For a sprite sheet it forwards the cache's
    frame data through [loadFrameData] and makes no write to [frameBounds];
    for a single image it writes the image's width and height into
    [frameBounds] and does not call [loadFrameData]. *)
Theorem loadImage_branches_exclusive
    (w : World) (key : string) (clearAnimations updateBody : bool)
    (image : ImageRef) :
  getImage (cache (game w)) key = Some image ->
  let w' := exec (loadImage key clearAnimations updateBody) w in
  let evs := emitted (loadImage key clearAnimations updateBody) w in
  result (loadImage key clearAnimations updateBody) w = Return tt /\
  evs = loadImage_hit_events w key clearAnimations updateBody image /\
  ~ (loads_frame_data evs /\ writes_frameBounds evs) /\
  if isSpriteSheet (cache (game w)) key
  then In (Call_loadFrameData (getFrameData (cache (game w)) key)) evs /\
       ~ writes_frameBounds evs
  else In (Write_frameBounds_width (img_width (images w image))) evs /\
       In (Write_frameBounds_height (img_height (images w image))) evs /\
       ~ loads_frame_data evs /\
       rect_width (frameBounds (sprite w')) = img_width (images w image) /\
       rect_height (frameBounds (sprite w')) = img_height (images w image).
Proof.
  intros H w' evs.
  assert (E : evs = loadImage_hit_events w key clearAnimations updateBody image)
    by (apply loadImage_hit_emitted; exact H).
  assert (R : result (loadImage key clearAnimations updateBody) w = Return tt).
  { clear E evs w'. open_world w.
    destruct clearAnimations, fd, updateBody, (iss key) eqn:S;
      js_run; rewrite !H; js_run; rewrite !S; js_run; reflexivity. }
  assert (B : isSpriteSheet (cache (game w)) key = false ->
              rect_width (frameBounds (sprite w')) = img_width (images w image) /\
              rect_height (frameBounds (sprite w')) = img_height (images w image)).
  { clear E R evs. subst w'. open_world w. intros S.
    destruct clearAnimations, fd, updateBody;
      js_run; rewrite !H; js_run; rewrite !S; js_run; split; reflexivity. }
  split; [exact R|]. split; [exact E|].
  rewrite E. clear E R. unfold loadImage_hit_events, loads_frame_data,
    writes_frameBounds.
  destruct (isSpriteSheet (cache (game w)) key).
  - clear B. split; [|split].
    + intros [_ [v [C | C]]];
        destruct clearAnimations, (not_null (frameData (animations (sprite w)))),
          updateBody; cbn in C; intuition discriminate.
    + destruct clearAnimations, (not_null (frameData (animations (sprite w))));
        cbn; auto 10.
    + intros [v [C | C]];
        destruct clearAnimations, (not_null (frameData (animations (sprite w)))),
          updateBody; cbn in C; intuition discriminate.
  - specialize (B eq_refl). destruct B as [B1 B2].
    assert (N : ~ (exists fd0 : option FrameData,
                In (Call_loadFrameData fd0)
                  ((if clearAnimations &&
                       not_null (frameData (animations (sprite w)))
                    then [Call_destroy] else []) ++
                   [Call_getImage key; Call_getImage key;
                    Call_setTo (Some image) None; Call_isSpriteSheet key] ++
                   [Write_frameBounds_width (img_width (images w image));
                    Write_frameBounds_height (img_height (images w image))] ++
                   (if updateBody
                    then [Write_body_bounds_width (img_width (images w image));
                          Write_body_bounds_height (img_height (images w image))]
                    else [])))).
    { intros [v C];
        destruct clearAnimations, (not_null (frameData (animations (sprite w)))),
          updateBody; cbn in C; intuition discriminate. }
    split; [intros [C _]; exact (N C)|].
    repeat split; try assumption;
      destruct clearAnimations, (not_null (frameData (animations (sprite w))));
      cbn; auto 10.
Qed.

Lemma loadImage_branches_exclusive_witness :
  In (Call_loadFrameData (Some Sample.four_frames))
    (emitted (loadImage "tiles" true true) Sample.unbound_animated) /\
  ~ writes_frameBounds
      (emitted (loadImage "tiles" true true) Sample.unbound_animated).
Proof.
  destruct (@loadImage_branches_exclusive
              Sample.unbound_animated "tiles" true true Sample.tiles_png
              eq_refl) as (_ & _ & _ & B).
  exact B.
Defined.

(** C10.  The animation-clear step comes before the cache is consulted: when
    the sprite holds frame data and [clearAnimations] is set, [loadImage] on a
    key the cache does not have calls [animations.destroy] and only then
    [getImage]; the frame data is gone afterwards, although the call raises
    nothing and leaves the Texture, the objects and the getters' answers as
    they were. *)
Theorem loadImage_miss_still_clears
    (w : World) (key : string) (updateBody : bool) :
  frameData (animations (sprite w)) <> None ->
  getImage (cache (game w)) key = None ->
  let w' := exec (loadImage key true updateBody) w in
  emitted (loadImage key true updateBody) w = [Call_destroy; Call_getImage key] /\
  frameData (animations (sprite w')) = None /\
  result (loadImage key true updateBody) w = Return tt /\
  this w' = this w /\
  result width w' = result width w /\
  result height w' = result height w.
Proof.
  intros F H w'.
  assert (E : emitted (loadImage key true updateBody) w =
                [Call_destroy; Call_getImage key] /\
              frameData (animations (sprite w')) = None /\
              result (loadImage key true updateBody) w = Return tt /\
              this w' = this w /\ images w' = images w /\
              dynamicTextures w' = dynamicTextures w).
  { subst w'. open_world w.
    destruct fd as [fd|]; [clear F | congruence].
    split; [apply emitted_app|]; js_run; rewrite !H; js_run;
      repeat split; reflexivity. }
  destruct E as (E & N & R & T & I & D).
  destruct (getters_congruence w w' T I D) as [GW GH].
  repeat split; assumption.
Qed.

Lemma loadImage_miss_still_clears_witness :
  frameData (animations (sprite Sample.unbound_animated)) =
    Some Sample.four_frames /\
  emitted (loadImage "nope" true true) Sample.unbound_animated =
    [Call_destroy; Call_getImage "nope"] /\
  frameData
    (animations
       (sprite (exec (loadImage "nope" true true) Sample.unbound_animated))) =
    None /\
  this (exec (loadImage "nope" true true) Sample.unbound_animated) =
    this Sample.unbound_animated.
Proof.
  assert (F : frameData (animations (sprite Sample.unbound_animated)) <> None)
    by discriminate.
  destruct (@loadImage_miss_still_clears
              Sample.unbound_animated "nope" true F eq_refl)
    as (E & N & _ & T & _).
  split; [reflexivity|]. split; [exact E|]. split; [exact N | exact T].
Defined.

(** ** Reading the dimensions *)

(** C6.  After a static image of size (64, 32) is bound the getters answer 64
    and 32; after a dynamic buffer of size (128, 128) is bound they answer 128
    and 128.  Nothing is remembered: once bound, the getters answer with
    whatever size the bound object has when they are called, and which
    object they read is decided by [isDynamic] alone. *)
Theorem getters_read_through (w : World) (i : ImageRef) (d : DynRef) :
  (img_width (images w i) = 64 -> img_height (images w i) = 32 ->
   let w' := exec (setTo (Some i) None) w in
   result width w' = Return 64 /\ result height w' = Return 32) /\
  (dt_width (dynamicTextures w d) = 128 ->
   dt_height (dynamicTextures w d) = 128 ->
   let w' := exec (setTo None (Some d)) w in
   result width w' = Return 128 /\ result height w' = Return 128) /\
  (forall im : ImageRef -> Image,
      let w' := set_images im (exec (setTo (Some i) None) w) in
      result width w' = Return (img_width (im i)) /\
      result height w' = Return (img_height (im i))) /\
  (forall dy : DynRef -> DynamicTexture,
      let w' := set_dynamicTextures dy (exec (setTo None (Some d)) w) in
      result width w' = Return (dt_width (dy d)) /\
      result height w' = Return (dt_height (dy d))) /\
  (isDynamic (this w) = true ->
   result width w = result (r <- gets (fun x => dynamicTexture (this x)) ;;
                            o <- deref r ;;
                            gets (fun x => dt_width (dynamicTextures x o))) w /\
   result height w = result (r <- gets (fun x => dynamicTexture (this x)) ;;
                             o <- deref r ;;
                             gets (fun x => dt_height (dynamicTextures x o))) w) /\
  (isDynamic (this w) = false ->
   result width w = result (r <- gets (fun x => imageTexture (this x)) ;;
                            o <- deref r ;;
                            gets (fun x => img_width (images x o))) w /\
   result height w = result (r <- gets (fun x => imageTexture (this x)) ;;
                             o <- deref r ;;
                             gets (fun x => img_height (images x o))) w) /\
  exec width w = w /\ exec height w = w.
Proof.
  split; [|split; [|split; [|split; [|split; [|split; [|split]]]]]].
  - intros W H w'. subst w'. unfold result, exec.
    rewrite setTo_static_eq, width_eq, height_eq. cbn. rewrite W, H.
    split; reflexivity.
  - intros W H w'. subst w'. unfold result, exec.
    rewrite setTo_dynamic_eq, width_eq, height_eq. cbn. rewrite W, H.
    split; reflexivity.
  - intros im w'. subst w'. unfold result, exec.
    rewrite setTo_static_eq, width_eq, height_eq. cbn. split; reflexivity.
  - intros dy w'. subst w'. unfold result, exec.
    rewrite setTo_dynamic_eq, width_eq, height_eq. cbn. split; reflexivity.
  - intros D. unfold result, width, height, bind, gets. rewrite D.
    split; reflexivity.
  - intros D. unfold result, width, height, bind, gets. rewrite D.
    split; reflexivity.
  - unfold exec. rewrite width_eq. reflexivity.
  - unfold exec. rewrite height_eq. reflexivity.
Qed.

Lemma getters_read_through_witness :
  (result width Sample.static_bound = Return 64 /\
   result height Sample.static_bound = Return 32) /\
  (result width (exec (setTo None (Some Sample.buffer)) Sample.unbound) =
     Return 128 /\
   result height (exec (setTo None (Some Sample.buffer)) Sample.unbound) =
     Return 128).
Proof.
  destruct (getters_read_through Sample.unbound Sample.hero_png Sample.buffer)
    as (S & D & _).
  split.
  - apply S; reflexivity.
  - apply D; reflexivity.
Defined.

(** ** Loading a dynamic texture *)

(** C7.  [loadDynamicTexture] on a buffer raises nothing, binds the dynamic
    backend and sets the width and height of the sprite's [frameBounds] from
    the buffer; it makes no write to the physics body, whose [bounds] stay as
    they were.  The method has no parameter that could ask for such a
    write. *)
Theorem loadDynamicTexture_leaves_body (w : World) (d : DynRef) :
  let w' := exec (loadDynamicTexture (Some d)) w in
  let evs := emitted (loadDynamicTexture (Some d)) w in
  result (loadDynamicTexture (Some d)) w = Return tt /\
  evs = (if not_null (frameData (animations (sprite w)))
         then [Call_destroy] else []) ++
        [Call_setTo None (Some d);
         Write_frameBounds_width (dt_width (dynamicTextures w d));
         Write_frameBounds_height (dt_height (dynamicTextures w d))] /\
  (forall v, ~ In (Write_body_bounds_width v) evs /\
             ~ In (Write_body_bounds_height v) evs) /\
  body (sprite w') = body (sprite w) /\
  isDynamic (this w') = true /\
  dynamicTexture (this w') = Some d /\
  loaded (this w') = true /\
  rect_width (frameBounds (sprite w')) = dt_width (dynamicTextures w d) /\
  rect_height (frameBounds (sprite w')) = dt_height (dynamicTextures w d).
Proof.
  intros w' evs.
  assert (E : evs = (if not_null (frameData (animations (sprite w)))
                     then [Call_destroy] else []) ++
                    [Call_setTo None (Some d);
                     Write_frameBounds_width (dt_width (dynamicTextures w d));
                     Write_frameBounds_height (dt_height (dynamicTextures w d))]).
  { subst evs w'. open_world w. apply emitted_app.
    destruct fd; js_run; reflexivity. }
  split; [|split; [exact E|split]].
  - subst evs w'. clear E. open_world w. destruct fd; reflexivity.
  - rewrite E. intros v.
    destruct (not_null (frameData (animations (sprite w)))); cbn;
      intuition discriminate.
  - subst evs w'. clear E. open_world w.
    destruct fd; js_run; repeat split; reflexivity.
Qed.

(** ** Loading twice *)

Lemma loadImage_single_twice
    (w : World) (key : string) (clearAnimations updateBody : bool) :
  isSpriteSheet (cache (game w)) key = false ->
  let once := exec (loadImage key clearAnimations updateBody) w in
  let twice := exec (loadImage key clearAnimations updateBody) once in
  frameBounds (sprite twice) = frameBounds (sprite once) /\
  bounds (body (sprite twice)) = bounds (body (sprite once)).
Proof.
  intros S once twice. subst twice once. open_world w.
  destruct (gi key) as [image|] eqn:H;
    destruct clearAnimations, fd, updateBody;
    js_run; rewrite !H; js_run; rewrite ?S; js_run;
    rewrite ?H; js_run; rewrite ?S; js_run; split; reflexivity.
Qed.

Lemma loadDynamicTexture_twice (w : World) (d : DynRef) :
  let once := exec (loadDynamicTexture (Some d)) w in
  let twice := exec (loadDynamicTexture (Some d)) once in
  frameBounds (sprite twice) = frameBounds (sprite once) /\
  bounds (body (sprite twice)) = bounds (body (sprite once)).
Proof.
  intros once twice. subst twice once. open_world w.
  destruct fd; js_run; split; reflexivity.
Qed.

(** C8.  Running the same load a second time changes no bounds: after
    [loadImage] on a single-image key, or [loadDynamicTexture] on a buffer,
    a second run with the same arguments leaves the width and height of the
    sprite's [frameBounds] and of [body.bounds] as the first run left
    them. *)
Theorem load_twice_same_bounds
    (w : World) (key : string) (clearAnimations updateBody : bool) (d : DynRef) :
  (isSpriteSheet (cache (game w)) key = false ->
   let once := exec (loadImage key clearAnimations updateBody) w in
   let twice := exec (loadImage key clearAnimations updateBody) once in
   rect_width (frameBounds (sprite twice)) = rect_width (frameBounds (sprite once)) /\
   rect_height (frameBounds (sprite twice)) = rect_height (frameBounds (sprite once)) /\
   rect_width (bounds (body (sprite twice))) = rect_width (bounds (body (sprite once))) /\
   rect_height (bounds (body (sprite twice))) = rect_height (bounds (body (sprite once)))) /\
  (let once := exec (loadDynamicTexture (Some d)) w in
   let twice := exec (loadDynamicTexture (Some d)) once in
   rect_width (frameBounds (sprite twice)) = rect_width (frameBounds (sprite once)) /\
   rect_height (frameBounds (sprite twice)) = rect_height (frameBounds (sprite once)) /\
   rect_width (bounds (body (sprite twice))) = rect_width (bounds (body (sprite once))) /\
   rect_height (bounds (body (sprite twice))) = rect_height (bounds (body (sprite once)))).
Proof.
  split.
  - intros S once twice.
    destruct (@loadImage_single_twice w key clearAnimations updateBody S)
      as [F B].
    subst twice once. rewrite F, B. repeat split; reflexivity.
  - intros once twice.
    destruct (loadDynamicTexture_twice w d) as [F B].
    subst twice once. rewrite F, B. repeat split; reflexivity.
Qed.

Lemma load_twice_same_bounds_witness :
  rect_width (frameBounds (sprite Sample.hero_once)) = 64 /\
  rect_width (frameBounds (sprite Sample.hero_twice)) =
    rect_width (frameBounds (sprite Sample.hero_once)) /\
  rect_height (frameBounds (sprite Sample.hero_twice)) =
    rect_height (frameBounds (sprite Sample.hero_once)) /\
  rect_width (bounds (body (sprite Sample.hero_twice))) =
    rect_width (bounds (body (sprite Sample.hero_once))) /\
  rect_height (bounds (body (sprite Sample.hero_twice))) =
    rect_height (bounds (body (sprite Sample.hero_once))).
Proof.
  split; [reflexivity|].
  exact (proj1 (@load_twice_same_bounds
                  Sample.unbound_animated "hero" true true Sample.buffer)
           eq_refl).
Defined.

(** ** The unbound Texture *)

Lemma loadImage_this_or_loaded
    (w : World) (key : string) (clearAnimations updateBody : bool) :
  let w' := exec (loadImage key clearAnimations updateBody) w in
  this w' = this w \/ loaded (this w') = true.
Proof.
  intros w'. subst w'. open_world w.
  destruct (gi key) as [image|] eqn:H; [right | left];
    destruct clearAnimations, fd, updateBody, (iss key) eqn:S;
    js_run; rewrite !H; js_run; rewrite ?S; js_run; reflexivity.
Qed.

Lemma loadDynamicTexture_loaded (w : World) (texture : option DynRef) :
  loaded (this (exec (loadDynamicTexture texture) w)) = true.
Proof.
  open_world w. destruct fd, texture; reflexivity.
Qed.

(** A method either leaves the fields of the Texture alone or ends with
    [loaded] set. *)
Lemma invoke_this_or_loaded (m : Method) (w : World) :
  this (exec (invoke m) w) = this w \/
  loaded (this (exec (invoke m) w)) = true.
Proof.
  destruct m as [image dynamic | key c u | t | |].
  - right. destruct dynamic; reflexivity.
  - apply loadImage_this_or_loaded.
  - right. apply loadDynamicTexture_loaded.
  - left. unfold invoke, exec, bind. rewrite width_eq.
    destruct (if isDynamic (this w) then _ else _); reflexivity.
  - left. unfold invoke, exec, bind. rewrite height_eq.
    destruct (if isDynamic (this w) then _ else _); reflexivity.
Qed.

Lemma constructor_unbound (key : option string) (w : World) :
  unbound_state (this (exec (constructor key) w)).
Proof.
  unfold unbound_state. destruct key as [k|].
  - open_world w.
    destruct (gi k) as [image|] eqn:H; destruct fd, (iss k) eqn:S;
      js_run; rewrite !H; js_run; rewrite ?S; js_run;
      solve [discriminate | intros _; repeat split].
  - intros _. repeat split.
Qed.

(** For as long as [loaded] is false, no backend has been bound. *)
Lemma reachable_unbound (w : World) : reachable w -> unbound_state (this w).
Proof.
  induction 1 as [key w | w w' R IH S].
  - apply constructor_unbound.
  - destruct S as [m w | w w' T _].
    + destruct (invoke_this_or_loaded m w) as [E | E].
      * rewrite E. exact IH.
      * unfold unbound_state. rewrite E. discriminate.
    + rewrite T. exact IH.
Qed.

(** C9.  On a Texture that is not loaded, with [isDynamic] false and
    [imageTexture] null, both getters take the static branch, read a property
    of [null] and raise a [TypeError]; no number is answered.  Every Texture
    whose [loaded] is false is in that state, from its construction on,
    through any calls of its methods. *)
Theorem unbound_getters_throw :
  (forall w : World,
      loaded (this w) = false ->
      isDynamic (this w) = false ->
      imageTexture (this w) = None ->
      width w = (Throw TypeError, w) /\ height w = (Throw TypeError, w)) /\
  (forall w : World,
      reachable w ->
      loaded (this w) = false ->
      result width w = Throw TypeError /\ result height w = Throw TypeError).
Proof.
  split.
  - intros w _ D I. rewrite width_eq, height_eq, D, I. split; reflexivity.
  - intros w R L. destruct (reachable_unbound R L) as (D & I & _).
    unfold result. rewrite width_eq, height_eq, D, I. split; reflexivity.
Qed.

Lemma unbound_getters_throw_witness :
  loaded (this Sample.unbound) = false /\
  reachable Sample.unbound /\
  width Sample.unbound = (Throw TypeError, Sample.unbound) /\
  height Sample.unbound = (Throw TypeError, Sample.unbound) /\
  result width (exec (loadImage "nope" true true) Sample.unbound) =
    Throw TypeError.
Proof.
  assert (R : reachable Sample.unbound) by apply reachable_new.
  split; [reflexivity|]. split; [exact R|].
  destruct (proj1 unbound_getters_throw Sample.unbound eq_refl eq_refl eq_refl)
    as [W H].
  split; [exact W|]. split; [exact H|].
  apply (proj2 unbound_getters_throw).
  - apply reachable_step with (w := Sample.unbound); [exact R|].
    apply (step_call (M_loadImage "nope" true true)).
  - reflexivity.
Defined.

(** * Further properties of the class *)

(** ** What a method can do to the Texture and to its surroundings *)

(** Whatever method is called, the fields of the Texture afterwards are the
    fields before, or those a single [setTo] gives. *)
Lemma invoke_this (m : Method) (w : World) :
  this (exec (invoke m) w) = this w \/
  exists image dynamic,
    this (exec (invoke m) w) = this (exec (setTo image dynamic) w).
Proof.
  destruct m as [image dynamic | key c u | t | |].
  - right. exists image, dynamic. destruct dynamic; reflexivity.
  - open_world w. destruct (gi key) as [image|] eqn:H.
    + right. exists (Some image), None.
      destruct c, fd, u, (iss key) eqn:S;
        js_run; rewrite !H; js_run; rewrite ?S; js_run; reflexivity.
    + left. destruct c, fd, u;
        js_run; rewrite !H; js_run; reflexivity.
  - right. exists None, t. open_world w. destruct fd, t; reflexivity.
  - left. unfold invoke, exec, bind. rewrite width_eq.
    destruct (if isDynamic (this w) then _ else _); reflexivity.
  - left. unfold invoke, exec, bind. rewrite height_eq.
    destruct (if isDynamic (this w) then _ else _); reflexivity.
Qed.

Lemma setTo_settings (w : World) (image : option ImageRef) (dynamic : option DynRef) :
  settings (this (exec (setTo image dynamic) w)) = settings (this w).
Proof. destruct dynamic; reflexivity. Qed.

Lemma setTo_consistent (w : World) (image : option ImageRef) (dynamic : option DynRef) :
  backend_consistent (this (exec (setTo image dynamic) w)).
Proof.
  unfold exec, backend_consistent. destruct dynamic as [d|].
  - rewrite setTo_dynamic_eq. cbn. split; [intros _ | discriminate].
    split; [reflexivity|]. split; [discriminate|]. eexists. reflexivity.
  - rewrite setTo_static_eq. cbn. split; [discriminate | reflexivity].
Qed.

Lemma step_settings (w w' : World) :
  step w w' -> settings (this w') = settings (this w).
Proof.
  intros [m w0 | w0 w0' T _].
  - destruct (invoke_this m w0) as [E | (image & dynamic & E)]; rewrite E.
    + reflexivity.
    + apply setTo_settings.
  - rewrite T. reflexivity.
Qed.

Lemma step_loaded (w w' : World) :
  step w w' -> loaded (this w) = true -> loaded (this w') = true.
Proof.
  intros [m w0 | w0 w0' T _] L.
  - destruct (invoke_this m w0) as [E | (image & dynamic & E)]; rewrite E.
    + exact L.
    + apply setTo_loaded.
  - rewrite T. exact L.
Qed.

Lemma step_consistent (w w' : World) :
  step w w' -> backend_consistent (this w) -> backend_consistent (this w').
Proof.
  intros [m w0 | w0 w0' T _] C.
  - destruct (invoke_this m w0) as [E | (image & dynamic & E)]; rewrite E.
    + exact C.
    + apply setTo_consistent.
  - rewrite T. exact C.
Qed.

Lemma constructor_consistent (key : option string) (w : World) :
  backend_consistent (this (exec (constructor key) w)).
Proof.
  unfold backend_consistent. destruct key as [k|].
  - open_world w.
    destruct (gi k) as [image|] eqn:H; destruct fd, (iss k) eqn:S;
      js_run; rewrite !H; js_run; rewrite ?S; js_run;
      (split; [discriminate | reflexivity]).
  - split; [discriminate | reflexivity].
Qed.

Lemma reachable_consistent (w : World) :
  reachable w -> backend_consistent (this w).
Proof.
  induction 1 as [key w | w w' R IH S].
  - apply constructor_consistent.
  - exact (step_consistent S IH).
Qed.

(** X3.  No method changes the settings of a Texture: its opacity, its canvas
    and context, its two flip flags, [renderRotation] and [cacheKey] stay as
    they were through any calls of [setTo], [loadImage],
    [loadDynamicTexture] and the getters.  In particular [loadImage] does not
    record the key it loads: [cacheKey] keeps naming the key given at
    construction. *)
Theorem methods_keep_settings (w w' : World) :
  steps w w' -> settings (this w') = settings (this w).
Proof.
  induction 1 as [w | w w' w'' _ IH S].
  - reflexivity.
  - rewrite (step_settings S). exact IH.
Qed.

Lemma methods_keep_settings_witness :
  steps Sample.constructed_hero Sample.hero_then_tiles /\
  cacheKey (this Sample.hero_then_tiles) = Some "hero" /\
  imageTexture (this Sample.hero_then_tiles) = Some Sample.tiles_png /\
  alpha (this Sample.hero_then_tiles) = Some 1%Q.
Proof.
  assert (S : steps Sample.constructed_hero Sample.hero_then_tiles).
  { apply steps_next with (w' := Sample.constructed_hero);
      [apply steps_refl|].
    apply (step_call (M_loadImage "tiles" false false)). }
  split; [exact S|].
  pose proof (methods_keep_settings S) as E.
  unfold settings in E.
  split; [|split; [reflexivity|]].
  - exact (f_equal (fun p => snd (fst (fst (fst p)))) E).
  - exact (f_equal (fun p => fst (fst (fst (fst (fst (fst p)))))) E).
Defined.

(** X4.  There is no way back to the unloaded state: once [loaded] is true it
    stays true through any calls of the methods. *)
Theorem loaded_is_never_reset (w w' : World) :
  steps w w' -> loaded (this w) = true -> loaded (this w') = true.
Proof.
  induction 1 as [w | w w' w'' _ IH S]; intros L.
  - exact L.
  - exact (step_loaded S (IH L)).
Qed.

Lemma loaded_is_never_reset_witness :
  loaded (this Sample.constructed_hero) = true /\
  loaded (this Sample.hero_then_tiles) = true.
Proof.
  split; [reflexivity|].
  apply (@loaded_is_never_reset Sample.constructed_hero).
  - apply steps_next with (w' := Sample.constructed_hero);
      [apply steps_refl|].
    apply (step_call (M_loadImage "tiles" false false)).
  - reflexivity.
Defined.

(** ** The tag and the backend it selects *)

(** X5.  In every state a Texture can reach from its construction through
    calls of its methods, [isDynamic] is only ever true with a dynamic
    texture held: the Texture is then loaded, [texture] is a canvas, and both
    getters answer with the size the dynamic texture has at that time; they
    do not raise. *)
Theorem reachable_dynamic_is_bound (w : World) :
  reachable w ->
  isDynamic (this w) = true ->
  loaded (this w) = true /\
  (exists c, texture (this w) = Some (CanvasSurface c)) /\
  exists d,
    dynamicTexture (this w) = Some d /\
    result width w = Return (dt_width (dynamicTextures w d)) /\
    result height w = Return (dt_height (dynamicTextures w d)).
Proof.
  intros R D.
  destruct (reachable_consistent R) as [C _].
  destruct (C D) as (L & N & X).
  split; [exact L|]. split; [exact X|].
  destruct (dynamicTexture (this w)) as [d|] eqn:E; [|congruence].
  exists d. split; [reflexivity|].
  unfold result. rewrite width_eq, height_eq, D, E. split; reflexivity.
Qed.

Lemma reachable_dynamic_is_bound_witness :
  reachable Sample.dynamic_over_static /\
  isDynamic (this Sample.dynamic_over_static) = true /\
  exists d,
    dynamicTexture (this Sample.dynamic_over_static) = Some d /\
    result width Sample.dynamic_over_static =
      Return (dt_width (dynamicTextures Sample.dynamic_over_static d)) /\
    result height Sample.dynamic_over_static =
      Return (dt_height (dynamicTextures Sample.dynamic_over_static d)).
Proof.
  assert (R : reachable Sample.dynamic_over_static).
  { apply reachable_step with (w := Sample.static_bound).
    - apply reachable_step with (w := Sample.unbound).
      + apply reachable_new.
      + apply (step_call (M_setTo (Some Sample.hero_png) None)).
    - apply (step_call (M_setTo None (Some Sample.buffer))). }
  split; [exact R|]. split; [reflexivity|].
  exact (proj2 (proj2 (reachable_dynamic_is_bound R eq_refl))).
Defined.

(** X6.  In every reachable state the two getters raise together or answer
    together, and they raise exactly when the Texture is in static mode with
    no image held; in static mode [texture] is the image held (null when there
    is none). *)
Theorem reachable_getters_raise_iff (w : World) :
  reachable w ->
  (result width w = Throw TypeError <->
   isDynamic (this w) = false /\ imageTexture (this w) = None) /\
  (result height w = Throw TypeError <->
   isDynamic (this w) = false /\ imageTexture (this w) = None) /\
  (isDynamic (this w) = false ->
   texture (this w) = option_map ImageSurface (imageTexture (this w))).
Proof.
  intros R. destruct (reachable_consistent R) as [CD CS].
  unfold result. rewrite width_eq, height_eq. cbn [fst].
  destruct (isDynamic (this w)) eqn:D.
  - destruct (CD eq_refl) as (_ & N & _).
    destruct (dynamicTexture (this w)) as [d|]; [|congruence].
    repeat split; try discriminate; intros [F _]; discriminate.
  - destruct (imageTexture (this w)) as [i|].
    + split; [|split]; [split; [discriminate | intros [_ F]; discriminate] ..
                       | exact CS].
    + split; [|split]; [split; [intros _; split | intros _]; reflexivity ..
                       | exact CS].
Qed.

Lemma reachable_getters_raise_iff_witness :
  reachable Sample.unbound /\
  (result width Sample.unbound = Throw TypeError <->
   isDynamic (this Sample.unbound) = false /\
   imageTexture (this Sample.unbound) = None).
Proof.
  assert (R : reachable Sample.unbound) by apply reachable_new.
  split; [exact R|].
  exact (proj1 (reachable_getters_raise_iff R)).
Defined.

(** ** Edge cases of the backend swap and of the loaders *)

(** X7.  When [setTo] is given both an image and a dynamic texture, the
    dynamic texture wins and the image is ignored: [imageTexture] keeps its
    old value, [isDynamic] is true, [texture] is the canvas of the dynamic
    texture, and the getters answer with the dynamic texture's size. *)
Theorem setTo_both_dynamic_wins (w : World) (image : ImageRef) (d : DynRef) :
  let w' := exec (setTo (Some image) (Some d)) w in
  result (setTo (Some image) (Some d)) w = Return (sprite w) /\
  isDynamic (this w') = true /\
  dynamicTexture (this w') = Some d /\
  imageTexture (this w') = imageTexture (this w) /\
  texture (this w') = Some (CanvasSurface (dt_canvas (dynamicTextures w d))) /\
  loaded (this w') = true /\
  result width w' = Return (dt_width (dynamicTextures w d)) /\
  result height w' = Return (dt_height (dynamicTextures w d)).
Proof.
  intros w'. subst w'. unfold result, exec.
  rewrite setTo_dynamic_eq, width_eq, height_eq. cbn.
  repeat split; reflexivity.
Qed.

(** X8.  [loadDynamicTexture] given [null] raises a [TypeError], and does so
    after the swap: the Texture is left marked as loaded, in static mode, with
    [imageTexture] and [texture] null; the sprite's [frameBounds] and [body]
    are not written, and frame data the sprite held has been discarded. *)
Theorem loadDynamicTexture_null_raises (w : World) :
  let w' := exec (loadDynamicTexture None) w in
  result (loadDynamicTexture None) w = Throw TypeError /\
  loaded (this w') = true /\
  isDynamic (this w') = false /\
  imageTexture (this w') = None /\
  texture (this w') = None /\
  dynamicTexture (this w') = dynamicTexture (this w) /\
  frameBounds (sprite w') = frameBounds (sprite w) /\
  body (sprite w') = body (sprite w) /\
  frameData (animations (sprite w')) = None /\
  emitted (loadDynamicTexture None) w =
    (if not_null (frameData (animations (sprite w)))
     then [Call_destroy] else []) ++ [Call_setTo None None].
Proof.
  intros w'. subst w'. open_world w.
  destruct fd; (repeat split; try reflexivity);
    apply emitted_app; js_run; reflexivity.
Qed.

(** X9.  [loadDynamicTexture] cannot be told to keep animations: whatever its
    argument, it calls [animations.destroy] exactly when the sprite holds
    frame data, as its first action, and the sprite holds none afterwards. *)
Theorem loadDynamicTexture_always_discards (w : World) (t : option DynRef) :
  let evs := emitted (loadDynamicTexture t) w in
  (In Call_destroy evs <-> frameData (animations (sprite w)) <> None) /\
  (frameData (animations (sprite w)) <> None ->
   exists rest, evs = Call_destroy :: Call_setTo None t :: rest) /\
  frameData (animations (sprite (exec (loadDynamicTexture t) w))) = None.
Proof.
  intros evs.
  assert (E : exists rest,
             evs = (if not_null (frameData (animations (sprite w)))
                    then [Call_destroy] else []) ++
                   Call_setTo None t :: rest /\
             ~ In Call_destroy rest).
  { subst evs. open_world w.
    destruct fd, t; eexists; (split; [apply emitted_app; js_run; reflexivity|]);
      cbn [In]; intros C; repeat (destruct C as [C | C]; try discriminate C);
      exact C. }
  destruct E as (rest & E & N).
  split; [|split].
  - rewrite E. destruct (frameData (animations (sprite w))); cbn.
    + split; [discriminate | auto].
    + split; [|congruence]. intros [C | C]; [discriminate | contradiction].
  - intros F. exists rest. rewrite E.
    destruct (frameData (animations (sprite w))); [reflexivity | congruence].
  - clear. open_world w. destruct fd, t; reflexivity.
Qed.

Lemma loadDynamicTexture_always_discards_witness :
  In Call_destroy
    (emitted (loadDynamicTexture (Some Sample.buffer)) Sample.unbound_animated) /\
  exists rest,
    emitted (loadDynamicTexture (Some Sample.buffer)) Sample.unbound_animated =
    Call_destroy :: Call_setTo None (Some Sample.buffer) :: rest.
Proof.
  assert (F : frameData (animations (sprite Sample.unbound_animated)) <> None)
    by discriminate.
  destruct (loadDynamicTexture_always_discards
              Sample.unbound_animated (Some Sample.buffer)) as (I & S & _).
  split.
  - apply I. exact F.
  - apply S. exact F.
Defined.

(** ** The flags of [loadImage] *)

(** X10.  With [clearAnimations] false [loadImage] never calls
    [animations.destroy], whatever the sprite holds and whatever the key is;
    when the key is missing from the cache or names a single image, the
    sprite's animation state is left exactly as it was. *)
Theorem loadImage_can_keep_animations
    (w : World) (key : string) (updateBody : bool) :
  ~ In Call_destroy (emitted (loadImage key false updateBody) w) /\
  (getImage (cache (game w)) key = None \/
   isSpriteSheet (cache (game w)) key = false ->
   animations (sprite (exec (loadImage key false updateBody) w)) =
   animations (sprite w)).
Proof.
  split.
  - assert (E : exists l, emitted (loadImage key false updateBody) w = l /\
                          ~ In Call_destroy l).
    { open_world w.
      destruct (gi key) as [image|] eqn:H; destruct updateBody, (iss key) eqn:S;
        eexists;
        (split; [apply emitted_app; js_run; rewrite !H; js_run; rewrite ?S;
                 js_run; reflexivity|]);
        cbn [In]; intros C; repeat (destruct C as [C | C]; try discriminate C);
        exact C. }
    destruct E as (l & E & N). rewrite E. exact N.
  - open_world w. intros K.
    destruct (gi key) as [image|] eqn:H; destruct updateBody, (iss key) eqn:S;
      try (destruct K; discriminate);
      js_run; rewrite !H; js_run; rewrite ?S; js_run; reflexivity.
Qed.

Lemma loadImage_can_keep_animations_witness :
  ~ In Call_destroy (emitted (loadImage "hero" false true) Sample.unbound_animated) /\
  frameData
    (animations (sprite (exec (loadImage "hero" false true) Sample.unbound_animated))) =
  Some Sample.four_frames.
Proof.
  destruct (loadImage_can_keep_animations Sample.unbound_animated "hero" true)
    as [N A].
  split; [exact N|].
  rewrite A; [reflexivity|]. right. reflexivity.
Defined.

(** X11.  With [updateBody] false [loadImage] makes no write to
    [body.bounds] and leaves the physics body as it was, for every key and
    whatever [clearAnimations] is. *)
Theorem loadImage_can_leave_body
    (w : World) (key : string) (clearAnimations : bool) :
  ~ writes_body_bounds (emitted (loadImage key clearAnimations false) w) /\
  body (sprite (exec (loadImage key clearAnimations false) w)) = body (sprite w).
Proof.
  split.
  - assert (E : exists l, emitted (loadImage key clearAnimations false) w = l /\
                          ~ writes_body_bounds l).
    { open_world w.
      destruct (gi key) as [image|] eqn:H;
        destruct clearAnimations, fd, (iss key) eqn:S;
        eexists;
        (split; [apply emitted_app; js_run; rewrite !H; js_run; rewrite ?S;
                 js_run; reflexivity|]);
        unfold writes_body_bounds; cbn [In]; intros [v [C | C]];
        repeat (destruct C as [C | C]; try discriminate C); exact C. }
    destruct E as (l & E & N). rewrite E. exact N.
  - open_world w.
    destruct (gi key) as [image|] eqn:H;
      destruct clearAnimations, fd, (iss key) eqn:S;
      js_run; rewrite !H; js_run; rewrite ?S; js_run; reflexivity.
Qed.

(** X12.  When the cache has the image, [loadImage] leaves the Texture bound
    to it whatever was bound before: static mode, [imageTexture] and
    [texture] are the cached image, [loaded] is true, the getters answer with
    the image's size; a dynamic texture held before is still referenced.
    With [updateBody] set the width and height of [body.bounds] become the
    size of the whole image, for a sprite sheet too, and the position of the
    bounds is kept. *)
Theorem loadImage_hit_binds_image
    (w : World) (key : string) (clearAnimations updateBody : bool)
    (image : ImageRef) :
  getImage (cache (game w)) key = Some image ->
  let w' := exec (loadImage key clearAnimations updateBody) w in
  isDynamic (this w') = false /\
  imageTexture (this w') = Some image /\
  texture (this w') = Some (ImageSurface image) /\
  loaded (this w') = true /\
  dynamicTexture (this w') = dynamicTexture (this w) /\
  result width w' = Return (img_width (images w image)) /\
  result height w' = Return (img_height (images w image)) /\
  (updateBody = true ->
   bounds (body (sprite w')) =
   {| rect_x := rect_x (bounds (body (sprite w)));
      rect_y := rect_y (bounds (body (sprite w)));
      rect_width := img_width (images w image);
      rect_height := img_height (images w image) |}).
Proof.
  intros H w'. subst w'. open_world w.
  destruct clearAnimations, fd, updateBody, (iss key) eqn:S;
    js_run; rewrite !H; js_run; rewrite ?S; js_run;
    repeat split; try reflexivity; intros; try discriminate;
    destruct bd as [[bx by_ bw bh]]; reflexivity.
Qed.

Lemma loadImage_hit_binds_image_witness :
  imageTexture (this Sample.hero_then_tiles) = Some Sample.tiles_png /\
  result width Sample.hero_then_tiles = Return 128 /\
  result height Sample.hero_then_tiles = Return 96.
Proof.
  destruct (@loadImage_hit_binds_image
              Sample.constructed_hero "tiles" false false Sample.tiles_png
              eq_refl) as (_ & I & _ & _ & _ & W & H & _).
  split; [exact I|]. split; [exact W | exact H].
Defined.

(** X13.  [loadImage] never raises: for every key, both flags and every
    state of the Texture, of the sprite and of the cache, it returns
    normally. *)
Theorem loadImage_never_raises
    (w : World) (key : string) (clearAnimations updateBody : bool) :
  result (loadImage key clearAnimations updateBody) w = Return tt.
Proof.
  open_world w.
  destruct (gi key) as [image|] eqn:H;
    destruct clearAnimations, fd, updateBody, (iss key) eqn:S;
    js_run; rewrite !H; js_run; rewrite ?S; js_run; reflexivity.
Qed.

(** X14.  A cache miss changes nothing at all in the sprite exactly when no
    clearing was due: with the key missing, the sprite after [loadImage] is
    the sprite before iff [clearAnimations] is false or the sprite held no
    frame data; either way the cache is asked once and nothing else is
    called. *)
Theorem loadImage_miss_sprite_unchanged_iff
    (w : World) (key : string) (clearAnimations updateBody : bool) :
  getImage (cache (game w)) key = None ->
  (sprite (exec (loadImage key clearAnimations updateBody) w) = sprite w <->
   clearAnimations = false \/ frameData (animations (sprite w)) = None) /\
  emitted (loadImage key clearAnimations updateBody) w =
    (if clearAnimations && not_null (frameData (animations (sprite w)))
     then [Call_destroy] else []) ++ [Call_getImage key].
Proof.
  intros H. open_world w. split.
  - destruct clearAnimations, fd; js_run; rewrite !H; js_run;
      (split; [intros E | intros K]);
      try reflexivity; try (left; reflexivity); try (right; reflexivity);
      try discriminate E; destruct K; discriminate.
  - apply emitted_app.
    destruct clearAnimations, fd; js_run; rewrite !H; js_run; reflexivity.
Qed.

Lemma loadImage_miss_sprite_unchanged_iff_witness :
  sprite (exec (loadImage "nope" false true) Sample.unbound_animated) =
    sprite Sample.unbound_animated /\
  emitted (loadImage "nope" false true) Sample.unbound_animated =
    [Call_getImage "nope"].
Proof.
  destruct (@loadImage_miss_sprite_unchanged_iff
              Sample.unbound_animated "nope" false true eq_refl) as [I E].
  split; [|exact E].
  apply I. left. reflexivity.
Defined.

(** ** How the loaders compose *)

(** X15.  Switching from a cached image to a dynamic texture leaves the
    physics body behind: after [loadImage] on a cached single image with
    [updateBody] set, followed by [loadDynamicTexture] on a buffer, the
    getters and the sprite's [frameBounds] have the buffer's size while
    [body.bounds] still has the image's size, and the image is still
    referenced by [imageTexture]. *)
Theorem dynamic_after_image_keeps_body
    (w : World) (key : string) (clearAnimations : bool)
    (image : ImageRef) (d : DynRef) :
  getImage (cache (game w)) key = Some image ->
  isSpriteSheet (cache (game w)) key = false ->
  let w1 := exec (loadImage key clearAnimations true) w in
  let w2 := exec (loadDynamicTexture (Some d)) w1 in
  result width w2 = Return (dt_width (dynamicTextures w d)) /\
  result height w2 = Return (dt_height (dynamicTextures w d)) /\
  rect_width (frameBounds (sprite w2)) = dt_width (dynamicTextures w d) /\
  rect_height (frameBounds (sprite w2)) = dt_height (dynamicTextures w d) /\
  rect_width (bounds (body (sprite w2))) = img_width (images w image) /\
  rect_height (bounds (body (sprite w2))) = img_height (images w image) /\
  isDynamic (this w2) = true /\
  imageTexture (this w2) = Some image.
Proof.
  intros H S w1 w2. subst w2 w1. open_world w.
  destruct clearAnimations, fd;
    js_run; rewrite !H; js_run; rewrite ?S; js_run;
    repeat split; reflexivity.
Qed.

Lemma dynamic_after_image_keeps_body_witness :
  result width Sample.hero_then_buffer = Return 128 /\
  rect_width (frameBounds (sprite Sample.hero_then_buffer)) = 128 /\
  rect_width (bounds (body (sprite Sample.hero_then_buffer))) = 64 /\
  rect_height (bounds (body (sprite Sample.hero_then_buffer))) = 32.
Proof.
  destruct (@dynamic_after_image_keeps_body
              Sample.unbound_animated "hero" true Sample.hero_png Sample.buffer
              eq_refl eq_refl) as (W & _ & FW & _ & BW & BH & _).
  split; [exact W|]. split; [exact FW|]. split; [exact BW | exact BH].
Defined.

(** X16.  No method writes to the game or to the objects it is given: after
    any call of [setTo], [loadImage], [loadDynamicTexture] or a getter, the
    game (its cache and stage), every image and every dynamic texture are as
    they were, whether the call returned or raised. *)
Theorem methods_never_write_objects (m : Method) (w : World) :
  game (exec (invoke m) w) = game w /\
  images (exec (invoke m) w) = images w /\
  dynamicTextures (exec (invoke m) w) = dynamicTextures w.
Proof.
  destruct m as [image dynamic | key c u | t | |].
  - destruct dynamic; repeat split.
  - open_world w.
    destruct (gi key) as [image|] eqn:H;
      destruct c, fd, u, (iss key) eqn:S;
      js_run; rewrite !H; js_run; rewrite ?S; js_run; repeat split.
  - open_world w. destruct fd, t; repeat split.
  - unfold invoke, exec, bind. rewrite width_eq.
    destruct (if isDynamic (this w) then _ else _); repeat split.
  - unfold invoke, exec, bind. rewrite height_eq.
    destruct (if isDynamic (this w) then _ else _); repeat split.
Qed.

(** ** Construction *)

(** X1.  The constructor never raises and starts from a fresh Texture,
    whatever the fields held before: afterwards the opacity is 1, both flip
    flags are false, [renderRotation] is true, [canvas] and [context] are the
    stage's, no dynamic texture is held and the mode is static.  [cacheKey]
    is the key given, and stays unassigned when the key is an explicit
    [null], in which case nothing is looked up or called. *)
Theorem constructor_fresh (key : option string) (w : World) :
  let w' := exec (constructor key) w in
  result (constructor key) w = Return tt /\
  alpha (this w') = Some 1%Q /\
  flippedX (this w') = false /\
  flippedY (this w') = false /\
  renderRotation (this w') = true /\
  canvas (this w') = Some (stage_canvas (stage (game w))) /\
  context (this w') = Some (stage_context (stage (game w))) /\
  cacheKey (this w') = key /\
  dynamicTexture (this w') = None /\
  isDynamic (this w') = false /\
  (key = None -> emitted (constructor key) w = [] /\ loaded (this w') = false).
Proof.
  intros w'. subst w'. destruct key as [k|].
  - open_world w.
    destruct (gi k) as [image|] eqn:H; destruct fd, (iss k) eqn:S;
      js_run; rewrite !H; js_run; rewrite ?S; js_run;
      repeat split; try reflexivity; discriminate.
  - open_world w. repeat split.
    unfold emitted. cbn. apply skipn_all.
Qed.

Lemma constructor_fresh_witness :
  emitted (constructor None) (Sample.blank Sample.animated_sprite) = [] /\
  loaded (this Sample.unbound_animated) = false /\
  cacheKey (this Sample.unbound_animated) = None.
Proof.
  destruct (constructor_fresh None (Sample.blank Sample.animated_sprite))
    as (_ & _ & _ & _ & _ & _ & _ & K & _ & _ & N).
  destruct (N eq_refl) as [E L].
  split; [exact E|]. split; [exact L | exact K].
Defined.

(** X2.  A Texture constructed with a key is loaded exactly when the cache
    has an image for that key, and is then bound to that image.  The load is
    made with both defaults on: frame data the sprite held is discarded even
    when the key is missing, and on a hit the width and height of
    [body.bounds] are set to the image's. *)
Theorem constructor_loads_iff_cached (k : string) (w : World) :
  let w' := exec (constructor (Some k)) w in
  loaded (this w') = not_null (getImage (cache (game w)) k) /\
  imageTexture (this w') = getImage (cache (game w)) k /\
  texture (this w') = option_map ImageSurface (getImage (cache (game w)) k) /\
  (frameData (animations (sprite w)) <> None ->
   exists rest, emitted (constructor (Some k)) w = Call_destroy :: rest) /\
  (forall image,
      getImage (cache (game w)) k = Some image ->
      rect_width (bounds (body (sprite w'))) = img_width (images w image) /\
      rect_height (bounds (body (sprite w'))) = img_height (images w image) /\
      result width w' = Return (img_width (images w image)) /\
      result height w' = Return (img_height (images w image))).
Proof.
  intros w'. subst w'. open_world w.
  destruct (gi k) as [image|] eqn:H; destruct fd as [f|], (iss k) eqn:S;
    (split; [|split; [|split; [|split]]]);
    try (js_run; rewrite !H; js_run; rewrite ?S; js_run; reflexivity);
    try (intros F; try congruence; eexists; apply emitted_app;
         js_run; rewrite !H; js_run; rewrite ?S; js_run; reflexivity);
    intros image' E; try discriminate E;
    injection E as <-;
    js_run; rewrite !H; js_run; rewrite ?S; js_run; repeat split; reflexivity.
Qed.

Lemma constructor_loads_iff_cached_witness :
  loaded (this Sample.constructed_hero) = true /\
  (exists rest,
      emitted (constructor (Some "hero")) (Sample.blank Sample.animated_sprite) =
      Call_destroy :: rest) /\
  rect_width (bounds (body (sprite Sample.constructed_hero))) = 64 /\
  result width Sample.constructed_hero = Return 64.
Proof.
  destruct (constructor_loads_iff_cached
              "hero" (Sample.blank Sample.animated_sprite))
    as (L & _ & _ & D & B).
  split; [exact L|]. split.
  - apply D. discriminate.
  - destruct (B Sample.hero_png eq_refl) as (BW & _ & W & _).
    split; [exact BW | exact W].
Defined.
